(** * semdag: typed, optionally reversible morphisms (src/index.ts)

    A shallow embedding of the morphism algebra of [src/index.ts]: the [Type]
    descriptor, the three morphism variants, [compose] with its compatibility
    check, and the reversal procedure.

    Modelling conventions.
    - TypeScript generics are erased at run time: every value that flows
      through a morphism is a [Serializable] (src/json.ts).
    - The caller-supplied functions ([map], [inverse], [equals]) are JavaScript
      functions: they either return a value or throw.  They are embedded as
      functions into [Outcome].  src/index.test.ts supplies inverses that
      throw, so the embedding keeps that possibility.
    - Objects that are compared with [===] / [!==] are represented by their
      references.  A [Type] descriptor object lives in a store, at a
      [TypeRef]; the Zod schema object a descriptor points to is represented
      by its [SchemaRef].  The library never calls into a schema, it only
      compares schema references. *)

From Stdlib Require Import String Ascii Bool PeanoNat PrimFloat.

#[local] Set Warnings "-register-all".

Local Open Scope string_scope.

(** ** Values (src/json.ts, [Serializable]) *)

Inductive Serializable : Type :=
| SString (s : string)
| SNumber (n : float)
| SBoolean (b : bool)
| SNull
| SUndefined
| SObject (fields : list (string * Serializable))
| SArray (items : list Serializable).

(** ** Outcome of evaluating a JavaScript expression *)

(** What a [throw] carries: [new Error(message)], the only exception the
    library itself builds, or any other value a callback chooses to throw. *)
Inductive Exn : Type :=
| Error (message : string)
| ThrownValue (v : Serializable).

Inductive Outcome (A : Type) : Type :=
| Returned (a : A)
| Thrown (e : Exn).

Arguments Returned {A} a.
Arguments Thrown {A} e.

Module Outcome.

Definition bind {A B : Type} (c : Outcome A) (k : A -> Outcome B) : Outcome B :=
  match c with
  | Returned a => k a
  | Thrown e => Thrown e
  end.

(** [x <- c ;; k]: evaluate [c]; if it returned, continue with [k], and if it
    threw, the exception propagates. *)
Notation "x <- c ;; k" := (bind c (fun x => k))
  (at level 61, c at next level, right associativity).

End Outcome.
Import Outcome.

(** A JavaScript function of one argument, as stored in a morphism. *)
Definition Fn : Type := Serializable -> Outcome Serializable.

(** ** Type descriptors *)

(** Identity of a Zod schema object. *)
Definition SchemaRef : Type := nat.
(** Identity of a [Type] descriptor object. *)
Definition TypeRef : Type := nat.

(** [interface Type<T>]: the object a [TypeRef] points to. *)
Record Type_ : Type := {
  name : string;
  schema : SchemaRef;
  equals : Serializable -> Serializable -> Outcome bool
}.

(** The store of [Type] descriptor objects.  JavaScript references never
    dangle, so the store is total on references. *)
Definition Store : Type := TypeRef -> Type_.

(** ** Morphisms *)

Inductive Kind : Type := basic | reversible | composed.

Record BasicMorphism : Type := {
  basic_map : Fn;
  basic_source : TypeRef;
  basic_target : TypeRef
}.

Record ReversibleMorphism : Type := {
  reversible_map : Fn;
  reversible_source : TypeRef;
  reversible_target : TypeRef;
  inverse : Fn
}.

(** [type Morphism = BasicMorphism | ReversibleMorphism | ComposedMorphism],
    a union discriminated by the [kind] tag. *)
Inductive Morphism : Type :=
| MBasic (m : BasicMorphism)
| MReversible (m : ReversibleMorphism)
| MComposed (m : ComposedMorphism)
with ComposedMorphism : Type :=
| Build_ComposedMorphism
    (composed_map : Fn)
    (composed_source composed_target : TypeRef)
    (first second : Morphism).

Definition composed_map (m : ComposedMorphism) : Fn :=
  let (f, _, _, _, _) := m in f.
Definition composed_source (m : ComposedMorphism) : TypeRef :=
  let (_, s, _, _, _) := m in s.
Definition composed_target (m : ComposedMorphism) : TypeRef :=
  let (_, _, t, _, _) := m in t.
Definition first (m : ComposedMorphism) : Morphism :=
  let (_, _, _, f, _) := m in f.
Definition second (m : ComposedMorphism) : Morphism :=
  let (_, _, _, _, s) := m in s.

(** The fields every variant has: [m.kind], [m.map], [m.source], [m.target]. *)
Definition kind (m : Morphism) : Kind :=
  match m with
  | MBasic _ => basic
  | MReversible _ => reversible
  | MComposed _ => composed
  end.

Definition map (m : Morphism) : Fn :=
  match m with
  | MBasic b => basic_map b
  | MReversible r => reversible_map r
  | MComposed c => composed_map c
  end.

Definition source (m : Morphism) : TypeRef :=
  match m with
  | MBasic b => basic_source b
  | MReversible r => reversible_source r
  | MComposed c => composed_source c
  end.

Definition target (m : Morphism) : TypeRef :=
  match m with
  | MBasic b => basic_target b
  | MReversible r => reversible_target r
  | MComposed c => composed_target c
  end.

Definition Kind_eqb (k1 k2 : Kind) : bool :=
  match k1, k2 with
  | basic, basic | reversible, reversible | composed, composed => true
  | _, _ => false
  end.

(** ** Constructors *)

Definition reversibleMorphism (source target : TypeRef) (forward backward : Fn)
  : Morphism :=
  MReversible {| reversible_map := forward;
                 reversible_source := source;
                 reversible_target := target;
                 inverse := backward |}.

Definition morphism (source target : TypeRef) (forward : Fn) : Morphism :=
  MBasic {| basic_map := forward;
            basic_source := source;
            basic_target := target |}.

(** ** Result *)

(** [{ success: true; value: T } | { success: false; error: E }] *)
Inductive Result (T E : Type) : Type :=
| Success (value : T)
| Failure (error : E).

Arguments Success {T E} value.
Arguments Failure {T E} error.

Definition success {T E : Type} (r : Result T E) : bool :=
  match r with
  | Success _ => true
  | Failure _ => false
  end.

(** ** Diagnostic strings *)

Definition newline : string := String (ascii_of_nat 10) EmptyString.
Definition dquote : string := String (ascii_of_nat 34) EmptyString.

(** The template literal of [compose]; its continuation lines keep the twelve
    blanks of the source's indentation. *)
Definition incompatibleTypes (firstTarget secondSource : string) : string :=
  "Cannot compose morphisms: Incompatible types." ++ newline ++
  "            First morphism target type: " ++ firstTarget ++ newline ++
  "            Second morphism source type: " ++ secondSource.

(** [`Morphism "${sourceName} -> ${targetName}" is not reversible`] *)
Definition notReversible (sourceName targetName : string) : string :=
  "Morphism " ++ dquote ++ sourceName ++ " -> " ++ targetName ++ dquote ++
  " is not reversible".

(** [`Morphism "${sourceName} -> ${targetName}" within composition is not reversible`] *)
Definition notReversibleWithin (sourceName targetName : string) : string :=
  "Morphism " ++ dquote ++ sourceName ++ " -> " ++ targetName ++ dquote ++
  " within composition is not reversible".

(** ** Operations that do not read the store *)

Definition isReversible (m : Morphism) : bool :=
  Kind_eqb (kind m) reversible.

Definition inverseOf (m : Morphism) : option Fn :=
  match m with
  | MReversible r => Some (inverse r)
  | _ => None
  end.

(** [(m as ReversibleMorphism).inverse(b)]: the cast is erased at run time.
    On a variant without an [inverse] property the call is a call of
    [undefined], a TypeError.  [_reverseComposed] reaches the call only after
    its two tests of the [kind] tag (see [callInverse_reversible]). *)
Definition callInverse (m : Morphism) (b : Serializable) : Outcome Serializable :=
  match m with
  | MReversible r => inverse r b
  | _ => Thrown (Error "inverse is not a function")
  end.

(** ** Operations that read [Type] descriptors *)

Section Operations.

Variable store : Store.

(** [m.source.name -> m.target.name] of a morphism. *)
Definition sourceName (m : Morphism) : string := name (store (source m)).
Definition targetName (m : Morphism) : string := name (store (target m)).

Definition compose (first second : Morphism) : Outcome Morphism :=
  if negb (schema (store (target first)) =? schema (store (source second)))%nat
  then Thrown (Error (incompatibleTypes (targetName first) (sourceName second)))
  else Returned (MComposed (Build_ComposedMorphism
                   (fun a => b <- map first a ;; map second b)
                   (source first)
                   (target second)
                   first
                   second)).

Definition checkReversibility (m : Morphism) (testValue : Serializable)
  : Outcome bool :=
  match inverseOf m with
  | None => Returned false
  | Some inverse =>
      forward <- map m testValue ;;
      backward <- inverse forward ;;
      equals (store (source m)) testValue backward
  end.

Definition _reverseComposed (m : ComposedMorphism) (value : Serializable)
  : Outcome (Result Serializable string) :=
  if negb (isReversible (second m)) then
    Returned (Failure (notReversibleWithin (sourceName (second m))
                                           (targetName (second m))))
  else if negb (isReversible (first m)) then
    Returned (Failure (notReversibleWithin (sourceName (first m))
                                           (targetName (first m))))
  else
    secondReversed <- callInverse (second m) value ;;
    firstReversed <- callInverse (first m) secondReversed ;;
    Returned (Success firstReversed).

(** The [switch] on [m.kind].  Its [default] arm ('Unknown morphism kind')
    is taken only by an object outside the [Morphism] union, of which this
    type has none. *)
Definition reverse (m : Morphism) (value : Serializable)
  : Outcome (Result Serializable string) :=
  match m with
  | MReversible r =>
      v <- inverse r value ;; Returned (Success v)
  | MComposed c => _reverseComposed c value
  | MBasic _ =>
      Returned (Failure (notReversible (sourceName m) (targetName m)))
  end.

End Operations.

(** ** Concrete Types and morphisms

    The objects of src/index.test.ts and of the README, over ASCII strings. *)

Module Scenario.

(** [(a, b) => a === b] at [Type<string>]. *)
Definition stringEquals (a b : Serializable) : Outcome bool :=
  match a, b with
  | SString x, SString y => Returned (String.eqb x y)
  | _, _ => Returned false
  end.

Definition booleanEquals (a b : Serializable) : Outcome bool :=
  match a, b with
  | SBoolean x, SBoolean y => Returned (Bool.eqb x y)
  | _, _ => Returned false
  end.

(** [Math.abs(a - b) < Number.EPSILON] *)
Definition numberEquals (a b : Serializable) : Outcome bool :=
  match a, b with
  | SNumber x, SNumber y =>
      Returned (PrimFloat.ltb (PrimFloat.abs (PrimFloat.sub x y))
                              0x1p-52%float)
  | _, _ => Returned false
  end.

(** References of the descriptor objects and of their Zod schema objects. *)
Definition StringType : TypeRef := 0.
Definition NumberType : TypeRef := 1.
Definition BooleanType : TypeRef := 2.
(** A second descriptor for strings, built by a second call of
    [createStringType()]: same fields, its own [z.string()] schema object. *)
Definition StringType' : TypeRef := 3.
(** A descriptor for strings that reuses the schema object of [StringType],
    as in [{ ...StringType }]. *)
Definition SharedStringType : TypeRef := 4.

Definition zString : SchemaRef := 0.
Definition zNumber : SchemaRef := 1.
Definition zBoolean : SchemaRef := 2.
Definition zString' : SchemaRef := 3.

Definition store : Store := fun r =>
  match r with
  | 0 => {| name := "String"; schema := zString; equals := stringEquals |}
  | 1 => {| name := "Number"; schema := zNumber; equals := numberEquals |}
  | 2 => {| name := "Boolean"; schema := zBoolean; equals := booleanEquals |}
  | 3 => {| name := "String"; schema := zString'; equals := stringEquals |}
  (* [SharedStringType], and any further copy made the same way *)
  | _ => {| name := "String"; schema := zString; equals := stringEquals |}
  end.

(** *** String helpers *)

Definition upperAscii (c : ascii) : ascii :=
  let n := nat_of_ascii c in
  if (97 <=? n)%nat && (n <=? 122)%nat then ascii_of_nat (n - 32) else c.

Definition lowerAscii (c : ascii) : ascii :=
  let n := nat_of_ascii c in
  if (65 <=? n)%nat && (n <=? 90)%nat then ascii_of_nat (n + 32) else c.

Fixpoint mapAscii (f : ascii -> ascii) (s : string) : string :=
  match s with
  | EmptyString => EmptyString
  | String c rest => String (f c) (mapAscii f rest)
  end.

(** [s.slice(n)] for [0 <= n]. *)
Definition slice (n : nat) (s : string) : string :=
  substring n (String.length s - n) s.

(** A method call on a value that is not a string. *)
Definition notAFunction (method : string) : Exn :=
  Error (method ++ " is not a function").

(** *** Callbacks *)

(** [(s) => s.toUpperCase()] *)
Definition toUpperCaseFn : Fn := fun v =>
  match v with
  | SString s => Returned (SString (mapAscii upperAscii s))
  | _ => Thrown (notAFunction "s.toUpperCase")
  end.

(** [(s) => s.toLowerCase()] *)
Definition toLowerCaseFn : Fn := fun v =>
  match v with
  | SString s => Returned (SString (mapAscii lowerAscii s))
  | _ => Thrown (notAFunction "s.toLowerCase")
  end.

(** [(s) => `PRE_${s}`]; a template literal accepts any value, the model
    renders strings only. *)
Definition addPrefixFn : Fn := fun v =>
  match v with
  | SString s => Returned (SString ("PRE_" ++ s))
  | _ => Thrown (Error "unsupported interpolation")
  end.

(** [(s) => s.slice(4)] *)
Definition dropPrefixFn : Fn := fun v =>
  match v with
  | SString s => Returned (SString (slice 4 s))
  | _ => Thrown (notAFunction "s.slice")
  end.

(** An inverse that validates its input, in the manner of the parsing
    inverses of the tests:
    [(s) => { if (!s.startsWith('PRE_')) throw new Error('missing prefix'); return s.slice(4) }] *)
Definition dropPrefixStrictFn : Fn := fun v =>
  match v with
  | SString s =>
      if negb (prefix "PRE_" s) then Thrown (Error "missing prefix")
      else Returned (SString (slice 4 s))
  | _ => Thrown (notAFunction "s.startsWith")
  end.

(** [(s) => s === 'true'] *)
Definition isTrueFn : Fn := fun v =>
  match v with
  | SString s => Returned (SBoolean (String.eqb s "true"))
  | _ => Returned (SBoolean false)
  end.

(** [(s) => s.length > 0 ? s : 'empty'], some forward-only function. *)
Definition orEmptyFn : Fn := fun v =>
  match v with
  | SString s => Returned (SString (if String.eqb s "" then "empty" else s))
  | _ => Thrown (notAFunction "s.length")
  end.

(** *** Morphisms *)

Definition toUpperCase : Morphism :=
  reversibleMorphism StringType StringType toUpperCaseFn toLowerCaseFn.

Definition addPrefix : Morphism :=
  reversibleMorphism StringType StringType addPrefixFn dropPrefixFn.

Definition addPrefixStrict : ReversibleMorphism :=
  {| reversible_map := addPrefixFn;
     reversible_source := StringType;
     reversible_target := StringType;
     inverse := dropPrefixStrictFn |}.

(** Forward-only morphisms between different Types. *)
Definition orEmpty : Morphism := morphism NumberType StringType orEmptyFn.
Definition isTrue : Morphism := morphism StringType BooleanType isTrueFn.

(** Two morphisms whose meeting Types are distinct descriptor objects. *)
Definition intoString : Morphism :=
  reversibleMorphism StringType StringType toUpperCaseFn toLowerCaseFn.
Definition fromOtherString : Morphism :=
  reversibleMorphism StringType' StringType addPrefixFn dropPrefixFn.
Definition fromSharedString : Morphism :=
  reversibleMorphism SharedStringType StringType addPrefixFn dropPrefixFn.

(** [compose(toUpperCase, addPrefix)], as the object [compose] builds. *)
Definition upperThenPrefix : ComposedMorphism :=
  Build_ComposedMorphism
    (fun a => b <- map toUpperCase a ;; map addPrefix b)
    StringType StringType toUpperCase addPrefix.

(** One more level: [compose(compose(toUpperCase, addPrefix), addPrefix)]. *)
Definition nested : ComposedMorphism :=
  Build_ComposedMorphism
    (fun a => b <- map (MComposed upperThenPrefix) a ;; map addPrefix b)
    StringType StringType (MComposed upperThenPrefix) addPrefix.

(** [compose(orEmpty, isTrue)]: neither side is reversible. *)
Definition forwardOnly : ComposedMorphism :=
  Build_ComposedMorphism
    (fun a => b <- map orEmpty a ;; map isTrue b)
    NumberType BooleanType orEmpty isTrue.

End Scenario.


(** ** Repeated composition (src/index.test.ts, 'deeply nested compositions')

    [let composed = start; for (let i = 0; i < n; i++) composed = compose(composed, step)]
    with the loop stopped by the first [compose] that throws. *)

Fixpoint composeLoop (store : Store) (composed step : Morphism) (n : nat)
  : Outcome Morphism :=
  match n with
  | O => Returned composed
  | S k => next <- compose store composed step ;; composeLoop store next step k
  end.

(** [n] successive calls of one function, each on the value the previous
    call returned. *)
Fixpoint iterate (f : Fn) (n : nat) (a : Serializable) : Outcome Serializable :=
  match n with
  | O => Returned a
  | S k => b <- f a ;; iterate f k b
  end.

Module NestingTest.

(** [(n) => n + 1] and [(n) => n - 1]; [+] on a non-number concatenates or
    coerces, which the model leaves to numbers. *)
Definition addOneFn : Fn := fun v =>
  match v with
  | SNumber n => Returned (SNumber (n + 1)%float)
  | _ => Thrown (Error "unsupported operand")
  end.

Definition subOneFn : Fn := fun v =>
  match v with
  | SNumber n => Returned (SNumber (n - 1)%float)
  | _ => Thrown (Error "unsupported operand")
  end.

Definition addOne : Morphism :=
  reversibleMorphism Scenario.NumberType Scenario.NumberType addOneFn subOneFn.

End NestingTest.

(** * Properties *)

(** ** Basic facts about [Outcome] and the variant tag *)

Lemma bind_Returned {A B : Type} (c : Outcome A) (k : A -> Outcome B) (a : A) :
  c = Returned a -> (x <- c ;; k x) = k a.
Proof. intros ->. reflexivity. Qed.

Lemma bind_Thrown {A B : Type} (c : Outcome A) (k : A -> Outcome B) (e : Exn) :
  c = Thrown e -> (x <- c ;; k x) = Thrown e.
Proof. intros ->. reflexivity. Qed.

Lemma Kind_eqb_eq (k1 k2 : Kind) : Kind_eqb k1 k2 = true <-> k1 = k2.
Proof.
  split.
  - destruct k1, k2; simpl; intros H; try reflexivity; discriminate H.
  - intros <-. destruct k1; reflexivity.
Qed.

Lemma isReversible_true_inv (m : Morphism) :
  isReversible m = true -> exists r, m = MReversible r.
Proof.
  destruct m as [b | r | c]; unfold isReversible; simpl; intros H.
  - discriminate H.
  - exists r. reflexivity.
  - discriminate H.
Qed.

Lemma callInverse_reversible (m : Morphism) (b : Serializable) :
  isReversible m = true ->
  exists r, m = MReversible r /\ callInverse m b = inverse r b.
Proof.
  intros Hm. apply isReversible_true_inv in Hm. destruct Hm as [r ->].
  exists r. split; reflexivity.
Qed.

(** ** isReversible, inverseOf, checkReversibility *)

(** C6. [isReversible m] is [true] exactly when the variant tag of [m] is
    ['reversible']; hence it answers [false] on every composed morphism, also
    on one whose two components are reversible. *)
Theorem isReversible_iff_kind_reversible :
  (forall m : Morphism, isReversible m = true <-> kind m = reversible) /\
  (forall c : ComposedMorphism, isReversible (MComposed c) = false) /\
  (forall (map0 : Fn) (s t : TypeRef) (f g : ReversibleMorphism),
      isReversible
        (MComposed (Build_ComposedMorphism map0 s t (MReversible f) (MReversible g)))
      = false).
Proof.
  split; [| split].
  - intros m. unfold isReversible. apply Kind_eqb_eq.
  - intros c. reflexivity.
  - intros. reflexivity.
Qed.

(** C7. [inverseOf] hands back the very function stored as [inverse] when the
    morphism is the reversible variant, and [undefined] (here [None]) on the
    basic and on the composed variant, whatever the components of the latter
    are. *)
Theorem inverseOf_stored_inverse_or_undefined :
  (forall (s t : TypeRef) (forward backward : Fn),
      inverseOf (reversibleMorphism s t forward backward) = Some backward) /\
  (forall r : ReversibleMorphism, inverseOf (MReversible r) = Some (inverse r)) /\
  (forall b : BasicMorphism, inverseOf (MBasic b) = None) /\
  (forall c : ComposedMorphism, inverseOf (MComposed c) = None).
Proof.
  repeat split.
Qed.

(** C5. On the reversible variant [checkReversibility m v] is
    [m.source.equals(v, inverse(m.map(v)))] with the stored [inverse]; on the
    basic and on the composed variant it is [false], whatever the components
    of the composed morphism are. *)
Theorem checkReversibility_round_trip_or_false (store : Store) :
  (forall (r : ReversibleMorphism) (v : Serializable),
      checkReversibility store (MReversible r) v =
        (forward <- map (MReversible r) v ;;
         backward <- inverse r forward ;;
         equals (store (source (MReversible r))) v backward)) /\
  (forall (b : BasicMorphism) (v : Serializable),
      checkReversibility store (MBasic b) v = Returned false) /\
  (forall (c : ComposedMorphism) (v : Serializable),
      checkReversibility store (MComposed c) v = Returned false).
Proof.
  split; [| split]; intros x v; unfold checkReversibility; simpl; reflexivity.
Qed.

(** When the forward map and the inverse return, the answer of
    [checkReversibility] is the answer of [equals] on the probe and the
    round-tripped value. *)
Lemma checkReversibility_returns (store : Store) (r : ReversibleMorphism)
      (v forward backward : Serializable) :
  reversible_map r v = Returned forward ->
  inverse r forward = Returned backward ->
  checkReversibility store (MReversible r) v =
    equals (store (reversible_source r)) v backward.
Proof.
  intros Hmap Hinv. unfold checkReversibility. simpl.
  rewrite (bind_Returned _ _ _ Hmap).
  rewrite (bind_Returned _ _ _ Hinv).
  reflexivity.
Qed.

(** The README scenario: [toUpperCase] round-trips on ["hello"], while the
    composition [compose(toUpperCase, addPrefix)], which [reverse] does undo,
    is answered [false]. *)
Example checkReversibility_scenario :
  checkReversibility Scenario.store Scenario.toUpperCase (SString "hello")
    = Returned true /\
  checkReversibility Scenario.store (MComposed Scenario.upperThenPrefix)
                     (SString "hello")
    = Returned false /\
  reverse Scenario.store (MComposed Scenario.upperThenPrefix) (SString "PRE_HELLO")
    = Returned (Success (SString "hello")).
Proof. repeat split. Qed.

(** ** reverse on the basic and on the reversible variant *)

(** C9. On a basic morphism [reverse] returns, without throwing, the failure
    Result whose error is
    [Morphism "<source.name> -> <target.name>" is not reversible]. *)
Theorem reverse_basic_fails (store : Store) (b : BasicMorphism) (v : Serializable) :
  reverse store (MBasic b) v =
    Returned (Failure ("Morphism " ++ dquote
                       ++ name (store (source (MBasic b))) ++ " -> "
                       ++ name (store (target (MBasic b)))
                       ++ dquote ++ " is not reversible")).
Proof.
  destruct b as [forward s t]. reflexivity.
Qed.

(** In terms of the discriminant: the Result of a basic morphism has
    [success: false]. *)
Lemma reverse_basic_success_false (store : Store) (b : BasicMorphism)
      (v : Serializable) :
  exists r, reverse store (MBasic b) v = Returned r /\ success r = false.
Proof.
  destruct b as [forward s t].
  eexists. split; reflexivity.
Qed.

(** The message the test suite expects for a basic morphism on [Number]. *)
Example reverse_basic_message :
  reverse Scenario.store
          (morphism Scenario.NumberType Scenario.NumberType (fun n => Returned n))
          (SNumber 5)
  = Returned (Failure ("Morphism " ++ dquote ++ "Number -> Number" ++ dquote
                       ++ " is not reversible")).
Proof. reflexivity. Qed.

(** [reverse] on the reversible variant is the evaluation of
    [{ success: true, value: m.inverse(value) }]. *)
Lemma reverse_reversible_unfold (store : Store) (r : ReversibleMorphism)
      (v : Serializable) :
  reverse store (MReversible r) v = (x <- inverse r v ;; Returned (Success x)).
Proof. reflexivity. Qed.

(** On the reversible variant [reverse] never produces a failure Result. *)
Lemma reverse_reversible_not_Failure (store : Store) (r : ReversibleMorphism)
      (v : Serializable) (msg : string) :
  reverse store (MReversible r) v <> Returned (Failure msg).
Proof.
  rewrite reverse_reversible_unfold.
  case_eq (inverse r v).
  - intros a _. simpl. discriminate.
  - intros e _. simpl. discriminate.
Qed.

(** An exception of the stored inverse leaves [reverse] unhandled. *)
Lemma reverse_reversible_propagates (store : Store) (r : ReversibleMorphism)
      (v : Serializable) (e : Exn) :
  inverse r v = Thrown e ->
  reverse store (MReversible r) v = Thrown e.
Proof.
  intros Hinv. rewrite reverse_reversible_unfold.
  apply bind_Thrown. exact Hinv.
Qed.

(** C8, as amended. For a reversible morphism and a value on which the stored
    inverse returns [x], [reverse] returns [{ success: true, value: x }]. *)
Theorem reverse_reversible_succeeds (store : Store) (r : ReversibleMorphism)
        (v x : Serializable) :
  inverse r v = Returned x ->
  reverse store (MReversible r) v = Returned (Success x).
Proof.
  intros Hinv.
  rewrite reverse_reversible_unfold, Hinv.
  reflexivity.
Qed.

Lemma reverse_reversible_succeeds_witness :
  Scenario.toLowerCaseFn (SString "HELLO") = Returned (SString "hello") /\
  reverse Scenario.store Scenario.toUpperCase (SString "HELLO")
    = Returned (Success (SString "hello")).
Proof.
  split.
  - reflexivity.
  - apply (reverse_reversible_succeeds
             Scenario.store
             {| reversible_map := Scenario.toUpperCaseFn;
                reversible_source := Scenario.StringType;
                reversible_target := Scenario.StringType;
                inverse := Scenario.toLowerCaseFn |}
             (SString "HELLO") (SString "hello")).
    reflexivity.
Defined.

(** C8 as stated fails: the inverse of [addPrefixStrict] throws on a value
    without the prefix, and so does [reverse]; no Result is returned. *)
Lemma reverse_reversible_may_throw :
  kind (MReversible Scenario.addPrefixStrict) = reversible /\
  reverse Scenario.store (MReversible Scenario.addPrefixStrict) (SString "hello")
    = Thrown (Error "missing prefix") /\
  ~ (exists x : Serializable,
        reverse Scenario.store (MReversible Scenario.addPrefixStrict)
                (SString "hello")
        = Returned (Success x)).
Proof.
  split; [reflexivity | split; [reflexivity |]].
  intros [x Hx]. vm_compute in Hx. discriminate Hx.
Qed.

(** ** compose *)

(** The two arms of the compatibility check. *)
Lemma compose_schemas_differ (store : Store) (f g : Morphism) :
  schema (store (target f)) <> schema (store (source g)) ->
  compose store f g =
    Thrown (Error (incompatibleTypes (name (store (target f)))
                                     (name (store (source g))))).
Proof.
  intros Hneq. unfold compose.
  destruct (Nat.eqb_spec (schema (store (target f))) (schema (store (source g))))
    as [Heq | _].
  - contradiction.
  - reflexivity.
Qed.

Lemma compose_schemas_same (store : Store) (f g : Morphism) :
  schema (store (target f)) = schema (store (source g)) ->
  compose store f g =
    Returned (MComposed (Build_ComposedMorphism
                (fun a => b <- map f a ;; map g b)
                (source f) (target g) f g)).
Proof.
  intros Heq. unfold compose.
  rewrite Heq, Nat.eqb_refl. reflexivity.
Qed.

(** C1, as amended. [compose(f, g)] throws exactly when [f.target.schema] and
    [g.source.schema] are not the same schema object; the error it throws
    carries [f.target.name] and [g.source.name]; and it never throws when
    [f.target] and [g.source] are the same [Type] object. *)
Theorem compose_throws_iff_schemas_differ (store : Store) (f g : Morphism) :
  ((exists e, compose store f g = Thrown e) <->
   schema (store (target f)) <> schema (store (source g))) /\
  (forall e, compose store f g = Thrown e ->
             e = Error ("Cannot compose morphisms: Incompatible types." ++ newline
                        ++ "            First morphism target type: "
                        ++ name (store (target f)) ++ newline
                        ++ "            Second morphism source type: "
                        ++ name (store (source g)))) /\
  (target f = source g -> exists m, compose store f g = Returned m).
Proof.
  destruct (Nat.eq_dec (schema (store (target f))) (schema (store (source g))))
    as [Heq | Hneq].
  - pose proof (compose_schemas_same store f g Heq) as Hc.
    split; [split |]; [| | split].
    + intros [e He]. rewrite Hc in He. discriminate He.
    + intros Hneq. contradiction.
    + intros e He. rewrite Hc in He. discriminate He.
    + intros _. eexists. exact Hc.
  - pose proof (compose_schemas_differ store f g Hneq) as Hc.
    split; [split |]; [| | split].
    + intros _. exact Hneq.
    + intros _. eexists. exact Hc.
    + intros e He. rewrite Hc in He. injection He as <-. reflexivity.
    + intros Href. exfalso. apply Hneq. rewrite Href. reflexivity.
Qed.

(** C1 as stated fails: [intoString] ends in [StringType], [fromSharedString]
    starts from [SharedStringType], a different descriptor object with the same
    fields and the same schema object, and [compose] accepts the pair. *)
Lemma compose_accepts_distinct_types_sharing_schema :
  target Scenario.intoString <> source Scenario.fromSharedString /\
  (exists m, compose Scenario.store Scenario.intoString Scenario.fromSharedString
             = Returned m) /\
  ~ ((exists e, compose Scenario.store Scenario.intoString Scenario.fromSharedString
                = Thrown e)
     <-> target Scenario.intoString <> source Scenario.fromSharedString).
Proof.
  assert (Hdistinct : target Scenario.intoString <> source Scenario.fromSharedString)
    by (simpl; discriminate).
  split; [exact Hdistinct | split].
  - eexists. reflexivity.
  - intros [_ Hthrows]. destruct (Hthrows Hdistinct) as [e He].
    discriminate He.
Qed.

(** Two independently built descriptors, each with its own schema object, are
    rejected although their fields agree; the error names both Types. *)
Example compose_rejects_independent_types :
  name (Scenario.store Scenario.StringType) = name (Scenario.store Scenario.StringType') /\
  compose Scenario.store Scenario.intoString Scenario.fromOtherString
  = Thrown (Error ("Cannot compose morphisms: Incompatible types." ++ newline
                   ++ "            First morphism target type: String" ++ newline
                   ++ "            Second morphism source type: String")).
Proof. split; reflexivity. Qed.

(** C3. When the compatibility check passes, [compose(f, g)] returns a composed
    morphism whose [map] sends [a] to [g.map(f.map(a))], whose [source] is
    [f.source], whose [target] is [g.target], and whose [first] and [second]
    are [f] and [g]. *)
Theorem compose_builds_composition (store : Store) (f g : Morphism) :
  schema (store (target f)) = schema (store (source g)) ->
  exists c : ComposedMorphism,
    compose store f g = Returned (MComposed c) /\
    kind (MComposed c) = composed /\
    (forall a, map (MComposed c) a = (b <- map f a ;; map g b)) /\
    source (MComposed c) = source f /\
    target (MComposed c) = target g /\
    first c = f /\
    second c = g.
Proof.
  intros Hsame.
  eexists. split.
  - apply compose_schemas_same. exact Hsame.
  - simpl. auto 7.
Qed.

Lemma compose_builds_composition_witness :
  exists c : ComposedMorphism,
    compose Scenario.store Scenario.toUpperCase Scenario.addPrefix
      = Returned (MComposed c) /\
    kind (MComposed c) = composed /\
    (forall a, map (MComposed c) a
               = (b <- map Scenario.toUpperCase a ;; map Scenario.addPrefix b)) /\
    source (MComposed c) = source Scenario.toUpperCase /\
    target (MComposed c) = target Scenario.addPrefix /\
    first c = Scenario.toUpperCase /\
    second c = Scenario.addPrefix.
Proof.
  apply (compose_builds_composition
           Scenario.store Scenario.toUpperCase Scenario.addPrefix).
  reflexivity.
Defined.

(** The concrete scenario of the spec: [compose(upper, prefix).map("hello")]. *)
Example compose_map_scenario :
  compose Scenario.store Scenario.toUpperCase Scenario.addPrefix
    = Returned (MComposed Scenario.upperThenPrefix) /\
  map (MComposed Scenario.upperThenPrefix) (SString "hello")
    = Returned (SString "PRE_HELLO").
Proof. split; reflexivity. Qed.

(** A morphism that [compose] returned is the composed object over its two
    arguments. *)
Lemma compose_Returned_inv (store : Store) (f g m : Morphism) :
  compose store f g = Returned m ->
  m = MComposed (Build_ComposedMorphism
                   (fun a => b <- map f a ;; map g b)
                   (source f) (target g) f g).
Proof.
  unfold compose.
  destruct (negb _).
  - discriminate.
  - intros H. inversion H. reflexivity.
Qed.

(** ** reverse on the composed variant *)

(** With two reversible components, [_reverseComposed] applies the inverse of
    [second], then the inverse of [first]. *)
Lemma _reverseComposed_reversibles (store : Store) (c : ComposedMorphism)
      (f g : ReversibleMorphism) (v : Serializable) :
  first c = MReversible f ->
  second c = MReversible g ->
  _reverseComposed store c v =
    (secondReversed <- inverse g v ;;
     firstReversed <- inverse f secondReversed ;;
     Returned (Success firstReversed)).
Proof.
  intros Hf Hg. unfold _reverseComposed.
  rewrite Hf, Hg. reflexivity.
Qed.

(** C2, as amended. For [m = compose(f, g)] with both [f] and [g] reversible,
    and a value [v] on which the inverse of [g] returns [y] and the inverse of
    [f] returns [x] on [y], [reverse(m, v)] returns
    [{ success: true, value: x }]. *)
Theorem reverse_composed_right_to_left (store : Store)
        (f g : ReversibleMorphism) (m : Morphism) (v y x : Serializable) :
  compose store (MReversible f) (MReversible g) = Returned m ->
  inverse g v = Returned y ->
  inverse f y = Returned x ->
  reverse store m v = Returned (Success x).
Proof.
  intros Hm Hg Hf.
  apply compose_Returned_inv in Hm. subst m.
  cbn [reverse].
  erewrite _reverseComposed_reversibles by reflexivity.
  rewrite Hg. cbn [bind]. rewrite Hf. reflexivity.
Qed.

Lemma reverse_composed_right_to_left_witness :
  compose Scenario.store Scenario.toUpperCase Scenario.addPrefix
    = Returned (MComposed Scenario.upperThenPrefix) /\
  Scenario.dropPrefixFn (SString "PRE_HELLO") = Returned (SString "HELLO") /\
  Scenario.toLowerCaseFn (SString "HELLO") = Returned (SString "hello") /\
  reverse Scenario.store (MComposed Scenario.upperThenPrefix) (SString "PRE_HELLO")
    = Returned (Success (SString "hello")).
Proof.
  repeat (split; [reflexivity |]).
  apply (reverse_composed_right_to_left
           Scenario.store
           {| reversible_map := Scenario.toUpperCaseFn;
              reversible_source := Scenario.StringType;
              reversible_target := Scenario.StringType;
              inverse := Scenario.toLowerCaseFn |}
           {| reversible_map := Scenario.addPrefixFn;
              reversible_source := Scenario.StringType;
              reversible_target := Scenario.StringType;
              inverse := Scenario.dropPrefixFn |}
           (MComposed Scenario.upperThenPrefix)
           (SString "PRE_HELLO") (SString "HELLO") (SString "hello"));
    reflexivity.
Defined.

(** C2 as stated fails: [compose(toUpperCase, addPrefixStrict)] is built from
    two reversible morphisms, and reversing it on ["HELLO"] throws, because
    the inverse of its second component does. *)
Lemma reverse_composed_may_throw :
  exists m : Morphism,
    compose Scenario.store Scenario.toUpperCase
            (MReversible Scenario.addPrefixStrict) = Returned m /\
    isReversible Scenario.toUpperCase = true /\
    isReversible (MReversible Scenario.addPrefixStrict) = true /\
    reverse Scenario.store m (SString "HELLO") = Thrown (Error "missing prefix") /\
    ~ (exists x : Serializable,
          reverse Scenario.store m (SString "HELLO") = Returned (Success x)).
Proof.
  eexists. split; [reflexivity |].
  split; [reflexivity |]. split; [reflexivity |]. split; [reflexivity |].
  intros [x Hx]. vm_compute in Hx. inversion Hx.
Qed.

(** C10. When the second component of a composed morphism is not reversible,
    [reverse] returns the failure that names the second component, whatever
    the first component is. *)
Theorem reverse_composed_second_checked_first (store : Store)
        (c : ComposedMorphism) (v : Serializable) :
  isReversible (second c) = false ->
  reverse store (MComposed c) v =
    Returned (Failure ("Morphism " ++ dquote
                       ++ name (store (source (second c))) ++ " -> "
                       ++ name (store (target (second c)))
                       ++ dquote ++ " within composition is not reversible")).
Proof.
  intros Hsecond.
  cbn [reverse]. unfold _reverseComposed.
  rewrite Hsecond. reflexivity.
Qed.

Lemma reverse_composed_second_checked_first_witness :
  isReversible (first Scenario.forwardOnly) = false /\
  isReversible (second Scenario.forwardOnly) = false /\
  reverse Scenario.store (MComposed Scenario.forwardOnly) (SBoolean true) =
    Returned (Failure ("Morphism " ++ dquote ++ "String -> Boolean" ++ dquote
                       ++ " within composition is not reversible")).
Proof.
  split; [reflexivity | split; [reflexivity |]].
  apply (reverse_composed_second_checked_first
           Scenario.store Scenario.forwardOnly (SBoolean true)).
  reflexivity.
Defined.

(** When the second component is reversible and the first is not, the failure
    names the first component. *)
Lemma reverse_composed_first_not_reversible (store : Store)
      (c : ComposedMorphism) (v : Serializable) :
  isReversible (second c) = true ->
  isReversible (first c) = false ->
  reverse store (MComposed c) v =
    Returned (Failure (notReversibleWithin (sourceName store (first c))
                                           (targetName store (first c)))).
Proof.
  intros Hsecond Hfirst.
  cbn [reverse]. unfold _reverseComposed.
  rewrite Hsecond, Hfirst. reflexivity.
Qed.

(** C4. When at least one of the two components of a composed morphism is not
    the reversible variant, [reverse] returns a failure Result, and its error
    names, by source and target Type names, a component that is not
    reversible: the second one if it is not reversible, the first one
    otherwise. *)
Theorem reverse_composed_names_non_reversible_side (store : Store)
        (c : ComposedMorphism) (v : Serializable) :
  kind (first c) <> reversible \/ kind (second c) <> reversible ->
  exists side : Morphism,
    (side = first c \/ side = second c) /\
    kind side <> reversible /\
    reverse store (MComposed c) v =
      Returned (Failure ("Morphism " ++ dquote
                         ++ name (store (source side)) ++ " -> "
                         ++ name (store (target side))
                         ++ dquote ++ " within composition is not reversible")).
Proof.
  intros Hsome.
  assert (Hkind : forall m, isReversible m = false -> kind m <> reversible).
  { intros m Hm Hk. unfold isReversible in Hm. rewrite Hk in Hm. discriminate Hm. }
  destruct (isReversible (second c)) eqn:Hsecond.
  - destruct (isReversible (first c)) eqn:Hfirst.
    + exfalso.
      apply isReversible_true_inv in Hsecond. destruct Hsecond as [g Hg].
      apply isReversible_true_inv in Hfirst. destruct Hfirst as [f Hf].
      rewrite Hf, Hg in Hsome. simpl in Hsome.
      destruct Hsome as [H | H]; apply H; reflexivity.
    + exists (first c). repeat split.
      * left. reflexivity.
      * apply Hkind. exact Hfirst.
      * apply reverse_composed_first_not_reversible; assumption.
  - exists (second c). repeat split.
    + right. reflexivity.
    + apply Hkind. exact Hsecond.
    + cbn [reverse]. unfold _reverseComposed. rewrite Hsecond. reflexivity.
Qed.

Lemma reverse_composed_names_non_reversible_side_witness :
  exists side : Morphism,
    (side = first Scenario.nested \/ side = second Scenario.nested) /\
    kind side <> reversible /\
    reverse Scenario.store (MComposed Scenario.nested) (SString "PRE_PRE_HELLO") =
      Returned (Failure ("Morphism " ++ dquote
                         ++ name (Scenario.store (source side)) ++ " -> "
                         ++ name (Scenario.store (target side))
                         ++ dquote ++ " within composition is not reversible")).
Proof.
  apply (reverse_composed_names_non_reversible_side
           Scenario.store Scenario.nested (SString "PRE_PRE_HELLO")).
  left. simpl. discriminate.
Defined.

(** The nested composition of the test suite: every leaf is reversible, yet the
    first component carries the tag ['composed'] and [reverse] fails. *)
Example reverse_nested_fails :
  reverse Scenario.store (MComposed Scenario.nested) (SString "PRE_PRE_HELLO") =
    Returned (Failure ("Morphism " ++ dquote ++ "String -> String" ++ dquote
                       ++ " within composition is not reversible")).
Proof. reflexivity. Qed.

(** * Further properties of the library *)

(** ** Algebra of [Outcome] *)

Lemma bind_assoc {A B C : Type} (c : Outcome A) (k : A -> Outcome B)
      (h : B -> Outcome C) :
  (y <- (x <- c ;; k x) ;; h y) = (x <- c ;; y <- k x ;; h y).
Proof. destruct c as [a | e]; reflexivity. Qed.

Lemma bind_Returned_inv {A B : Type} (c : Outcome A) (k : A -> Outcome B) (b : B) :
  (x <- c ;; k x) = Returned b ->
  exists a, c = Returned a /\ k a = Returned b.
Proof.
  destruct c as [a | e]; simpl; intros H.
  - exists a. split; [reflexivity | exact H].
  - discriminate H.
Qed.

Lemma bind_Thrown_inv {A B : Type} (c : Outcome A) (k : A -> Outcome B) (e : Exn) :
  (x <- c ;; k x) = Thrown e ->
  c = Thrown e \/ exists a, c = Returned a /\ k a = Thrown e.
Proof.
  destruct c as [a | e']; simpl; intros H.
  - right. exists a. split; [reflexivity | exact H].
  - left. injection H as ->. reflexivity.
Qed.


(** ** The shape of what [_reverseComposed] returns *)

(** The three ways through [_reverseComposed], by the tags of the two
    components. *)
Lemma _reverseComposed_cases (store : Store) (c : ComposedMorphism)
      (v : Serializable) :
  (isReversible (second c) = false /\
   _reverseComposed store c v =
     Returned (Failure (notReversibleWithin (sourceName store (second c))
                                            (targetName store (second c))))) \/
  (isReversible (second c) = true /\ isReversible (first c) = false /\
   _reverseComposed store c v =
     Returned (Failure (notReversibleWithin (sourceName store (first c))
                                            (targetName store (first c))))) \/
  (exists f g, first c = MReversible f /\ second c = MReversible g /\
   _reverseComposed store c v =
     (secondReversed <- inverse g v ;;
      firstReversed <- inverse f secondReversed ;;
      Returned (Success firstReversed))).
Proof.
  destruct (isReversible (second c)) eqn:Hsecond.
  - destruct (isReversible (first c)) eqn:Hfirst.
    + right. right.
      destruct (isReversible_true_inv _ Hfirst) as [f Hf].
      destruct (isReversible_true_inv _ Hsecond) as [g Hg].
      exists f, g. split; [exact Hf | split; [exact Hg |]].
      apply _reverseComposed_reversibles; assumption.
    + right. left. split; [reflexivity | split; [reflexivity |]].
      unfold _reverseComposed. rewrite Hsecond, Hfirst. reflexivity.
  - left. split; [reflexivity |].
    unfold _reverseComposed. rewrite Hsecond. reflexivity.
Qed.

(** ** When [reverse] succeeds, fails and throws *)

(** X1. [reverse(m, v)] returns [{ success: true, value: x }] exactly in two
    situations: [m] is reversible and its inverse returns [x] on [v]; or [m]
    is composed, both of its components are reversible, the inverse of the
    second returns some [y] on [v] and the inverse of the first returns [x]
    on [y]. *)
Theorem reverse_succeeds_iff (store : Store) (m : Morphism) (v x : Serializable) :
  reverse store m v = Returned (Success x) <->
  (exists r, m = MReversible r /\ inverse r v = Returned x) \/
  (exists c f g y,
      m = MComposed c /\ first c = MReversible f /\ second c = MReversible g /\
      inverse g v = Returned y /\ inverse f y = Returned x).
Proof.
  split.
  - destruct m as [b | r | c].
    + simpl. intros H. discriminate H.
    + rewrite reverse_reversible_unfold. intros H.
      apply bind_Returned_inv in H. destruct H as [a [Ha Hret]].
      left. exists r. split; [reflexivity |].
      injection Hret as <-. exact Ha.
    + cbn [reverse]. intros H. right.
      destruct (_reverseComposed_cases store c v)
        as [[_ Hc] | [[_ [_ Hc]] | [f [g [Hf [Hg Hc]]]]]];
        rewrite Hc in H; try discriminate H.
      apply bind_Returned_inv in H. destruct H as [y [Hy H]].
      apply bind_Returned_inv in H. destruct H as [a [Ha Hret]].
      injection Hret as <-.
      exists c, f, g, y. auto.
  - intros [[r [-> Hr]] | [c [f [g [y [-> [Hf [Hg [Hy Hx]]]]]]]]].
    + rewrite reverse_reversible_unfold, Hr. reflexivity.
    + cbn [reverse].
      rewrite (_reverseComposed_reversibles store c f g v Hf Hg), Hy.
      cbn [bind]. rewrite Hx. reflexivity.
Qed.

(** X2. [reverse] raises nothing of its own: an exception that leaves
    [reverse(m, v)] was thrown by the stored inverse of [m] itself, or by the
    stored inverse of one of the two components of a composed [m]. *)
Theorem reverse_throws_only_from_inverse (store : Store) (m : Morphism)
        (v : Serializable) (e : Exn) :
  reverse store m v = Thrown e ->
  exists (r : ReversibleMorphism) (w : Serializable),
    inverse r w = Thrown e /\
    (m = MReversible r \/
     exists c, m = MComposed c /\ (first c = MReversible r \/ second c = MReversible r)).
Proof.
  destruct m as [b | r | c].
  - simpl. discriminate.
  - rewrite reverse_reversible_unfold. intros H.
    apply bind_Thrown_inv in H. destruct H as [H | [a [_ H]]].
    + exists r, v. split; [exact H | left; reflexivity].
    + discriminate H.
  - cbn [reverse]. intros H.
    destruct (_reverseComposed_cases store c v)
      as [[_ Hc] | [[_ [_ Hc]] | [f [g [Hf [Hg Hc]]]]]];
      rewrite Hc in H; try discriminate H.
    apply bind_Thrown_inv in H. destruct H as [H | [y [_ H]]].
    + exists g, v. split; [exact H |]. right. exists c. auto.
    + apply bind_Thrown_inv in H. destruct H as [H | [a [_ H]]].
      * exists f, y. split; [exact H |]. right. exists c. auto.
      * discriminate H.
Qed.

Lemma reverse_throws_only_from_inverse_witness :
  exists (r : ReversibleMorphism) (w : Serializable),
    inverse r w = Thrown (Error "missing prefix") /\
    (MReversible Scenario.addPrefixStrict = MReversible r \/
     exists c, MReversible Scenario.addPrefixStrict = MComposed c /\
               (first c = MReversible r \/ second c = MReversible r)).
Proof.
  apply (reverse_throws_only_from_inverse
           Scenario.store (MReversible Scenario.addPrefixStrict)
           (SString "hello") (Error "missing prefix")).
  reflexivity.
Defined.

(** X3. A failure Result of [reverse] is decided by the morphism alone: if
    [reverse(m, v)] is a failure for one value, it is the same failure for
    every value. *)
Theorem reverse_failure_ignores_value (store : Store) (m : Morphism)
        (v : Serializable) (msg : string) :
  reverse store m v = Returned (Failure msg) ->
  forall v' : Serializable, reverse store m v' = Returned (Failure msg).
Proof.
  intros H v'.
  destruct m as [b | r | c].
  - exact H.
  - exfalso. exact (reverse_reversible_not_Failure store r v msg H).
  - cbn [reverse] in *.
    destruct (_reverseComposed_cases store c v)
      as [[Hs Hc] | [[Hs [Hf Hc]] | [f [g [Hf [Hg Hc]]]]]].
    + rewrite Hc in H. rewrite <- H.
      unfold _reverseComposed. rewrite Hs. reflexivity.
    + rewrite Hc in H. rewrite <- H.
      unfold _reverseComposed. rewrite Hs, Hf. reflexivity.
    + exfalso. rewrite Hc in H.
      destruct (inverse g v) as [y | e]; simpl in H; [| discriminate H].
      destruct (inverse f y) as [a | e]; simpl in H; discriminate H.
Qed.

Lemma reverse_failure_ignores_value_witness :
  reverse Scenario.store (MComposed Scenario.forwardOnly) (SBoolean true) =
    Returned (Failure ("Morphism " ++ dquote ++ "String -> Boolean" ++ dquote
                       ++ " within composition is not reversible")) /\
  reverse Scenario.store (MComposed Scenario.forwardOnly) (SString "other") =
    Returned (Failure ("Morphism " ++ dquote ++ "String -> Boolean" ++ dquote
                       ++ " within composition is not reversible")).
Proof.
  split.
  - reflexivity.
  - apply (reverse_failure_ignores_value
             Scenario.store (MComposed Scenario.forwardOnly) (SBoolean true)).
    reflexivity.
Defined.



(** ** checkReversibility against reverse *)

(** X5. When [checkReversibility(m, v)] answers [true], [m] is the reversible
    variant, [m.map(v)] returned some [forward], [reverse(m, forward)]
    succeeds with some [backward], and [m.source.equals(v, backward)] is
    [true]. *)
Theorem checkReversibility_true_reverse (store : Store) (m : Morphism)
        (v : Serializable) :
  checkReversibility store m v = Returned true ->
  exists forward backward : Serializable,
    isReversible m = true /\
    map m v = Returned forward /\
    reverse store m forward = Returned (Success backward) /\
    equals (store (source m)) v backward = Returned true.
Proof.
  unfold checkReversibility.
  case_eq (inverseOf m).
  - intros inv Hinv H.
    destruct m as [b | r | c]; simpl in Hinv; try discriminate Hinv.
    injection Hinv as <-.
    apply bind_Returned_inv in H. destruct H as [forward [Hmap H]].
    apply bind_Returned_inv in H. destruct H as [backward [Hback Heq]].
    exists forward, backward.
    split; [reflexivity |]. split; [exact Hmap |]. split; [| exact Heq].
    rewrite reverse_reversible_unfold, Hback. reflexivity.
  - intros _ H. discriminate H.
Qed.

Lemma checkReversibility_true_reverse_witness :
  exists forward backward : Serializable,
    isReversible Scenario.toUpperCase = true /\
    map Scenario.toUpperCase (SString "hello") = Returned forward /\
    reverse Scenario.store Scenario.toUpperCase forward = Returned (Success backward) /\
    equals (Scenario.store (source Scenario.toUpperCase)) (SString "hello") backward
      = Returned true.
Proof.
  apply (checkReversibility_true_reverse
           Scenario.store Scenario.toUpperCase (SString "hello")).
  reflexivity.
Defined.

(** X6. Whatever [compose] returns is not reported reversible: [isReversible]
    is [false] on it, [inverseOf] is [undefined], and [checkReversibility] is
    [false] on every probe, also when both arguments were reversible. *)
Theorem compose_result_not_reported_reversible (store : Store)
        (f g m : Morphism) :
  compose store f g = Returned m ->
  isReversible m = false /\
  inverseOf m = None /\
  forall v : Serializable, checkReversibility store m v = Returned false.
Proof.
  intros Hm. apply compose_Returned_inv in Hm. subst m.
  split; [| split]; try reflexivity.
Qed.

Lemma compose_result_not_reported_reversible_witness :
  isReversible (MComposed Scenario.upperThenPrefix) = false /\
  inverseOf (MComposed Scenario.upperThenPrefix) = None /\
  forall v : Serializable,
    checkReversibility Scenario.store (MComposed Scenario.upperThenPrefix) v
    = Returned false.
Proof.
  apply (compose_result_not_reported_reversible
           Scenario.store Scenario.toUpperCase Scenario.addPrefix).
  reflexivity.
Defined.

(** ** compose: association and round trips *)

(** X7. Composition associates on what a morphism does: for [f], [g], [h]
    whose meeting schemas agree, [compose(compose(f, g), h)] and
    [compose(f, compose(g, h))] are both built, and the two have the same
    [source], the same [target] and the same [map] on every input. *)
Theorem compose_assoc (store : Store) (f g h : Morphism) :
  schema (store (target f)) = schema (store (source g)) ->
  schema (store (target g)) = schema (store (source h)) ->
  exists fg gh l r : Morphism,
    compose store f g = Returned fg /\
    compose store fg h = Returned l /\
    compose store g h = Returned gh /\
    compose store f gh = Returned r /\
    source l = source r /\
    target l = target r /\
    forall a : Serializable, map l a = map r a.
Proof.
  intros Hfg Hgh.
  pose proof (compose_schemas_same store f g Hfg) as Efg.
  pose proof (compose_schemas_same store g h Hgh) as Egh.
  do 4 eexists.
  split; [exact Efg |].
  split; [apply compose_schemas_same; exact Hgh |].
  split; [exact Egh |].
  split; [apply compose_schemas_same; exact Hfg |].
  split; [reflexivity |]. split; [reflexivity |].
  intros a. simpl. apply bind_assoc.
Qed.

Lemma compose_assoc_witness :
  exists fg gh l r : Morphism,
    compose Scenario.store Scenario.toUpperCase Scenario.addPrefix = Returned fg /\
    compose Scenario.store fg Scenario.isTrue = Returned l /\
    compose Scenario.store Scenario.addPrefix Scenario.isTrue = Returned gh /\
    compose Scenario.store Scenario.toUpperCase gh = Returned r /\
    source l = source r /\
    target l = target r /\
    forall a : Serializable, map l a = map r a.
Proof.
  apply (compose_assoc Scenario.store
           Scenario.toUpperCase Scenario.addPrefix Scenario.isTrue);
    reflexivity.
Defined.

(** X8. Round trip through a composition: for reversible [f] and [g] and a
    value [a] that [f.map] sends to [b] and [g.map] sends on to [c], if the
    stored inverses undo these two steps then [compose(f, g)] maps [a] to [c]
    and reversing it on [c] gives back [a]. *)
Theorem compose_round_trip (store : Store) (f g : ReversibleMorphism)
        (m : Morphism) (a b c : Serializable) :
  compose store (MReversible f) (MReversible g) = Returned m ->
  reversible_map f a = Returned b ->
  reversible_map g b = Returned c ->
  inverse g c = Returned b ->
  inverse f b = Returned a ->
  map m a = Returned c /\ reverse store m c = Returned (Success a).
Proof.
  intros Hm Hfa Hgb Hgc Hfb.
  apply compose_Returned_inv in Hm. subst m. split.
  - simpl. rewrite Hfa. simpl. exact Hgb.
  - cbn [reverse].
    erewrite _reverseComposed_reversibles by reflexivity.
    rewrite Hgc. cbn [bind]. rewrite Hfb. reflexivity.
Qed.

Lemma compose_round_trip_witness :
  map (MComposed Scenario.upperThenPrefix) (SString "hello")
    = Returned (SString "PRE_HELLO") /\
  reverse Scenario.store (MComposed Scenario.upperThenPrefix) (SString "PRE_HELLO")
    = Returned (Success (SString "hello")).
Proof.
  apply (compose_round_trip
           Scenario.store
           {| reversible_map := Scenario.toUpperCaseFn;
              reversible_source := Scenario.StringType;
              reversible_target := Scenario.StringType;
              inverse := Scenario.toLowerCaseFn |}
           {| reversible_map := Scenario.addPrefixFn;
              reversible_source := Scenario.StringType;
              reversible_target := Scenario.StringType;
              inverse := Scenario.dropPrefixFn |}
           (MComposed Scenario.upperThenPrefix)
           (SString "hello") (SString "HELLO") (SString "PRE_HELLO"));
    reflexivity.
Defined.

(** X9. A chain of three is built under the same condition whichever way it is
    nested: [compose(compose(f, g), h)] returns exactly when
    [compose(f, compose(g, h))] returns, namely when both meeting pairs of
    schemas are the same objects. *)
Theorem compose_chain_built_iff (store : Store) (f g h : Morphism) :
  ((exists l, (fg <- compose store f g ;; compose store fg h) = Returned l) <->
   (schema (store (target f)) = schema (store (source g)) /\
    schema (store (target g)) = schema (store (source h)))) /\
  ((exists r, (gh <- compose store g h ;; compose store f gh) = Returned r) <->
   (schema (store (target f)) = schema (store (source g)) /\
    schema (store (target g)) = schema (store (source h)))).
Proof.
  destruct (Nat.eq_dec (schema (store (target f))) (schema (store (source g))))
    as [Hfg | Hfg];
  destruct (Nat.eq_dec (schema (store (target g))) (schema (store (source h))))
    as [Hgh | Hgh].
  - split; (split; [intros _; split; assumption | intros _]).
    + rewrite (compose_schemas_same store f g Hfg). cbn [bind].
      eexists. apply compose_schemas_same. exact Hgh.
    + rewrite (compose_schemas_same store g h Hgh). cbn [bind].
      eexists. apply compose_schemas_same. exact Hfg.
  - split; (split; [| intros [_ H]; contradiction]); intros [m Hm]; exfalso.
    + rewrite (compose_schemas_same store f g Hfg) in Hm. cbn [bind] in Hm.
      rewrite compose_schemas_differ in Hm by exact Hgh. discriminate Hm.
    + rewrite (compose_schemas_differ store g h Hgh) in Hm. discriminate Hm.
  - split; (split; [| intros [H _]; contradiction]); intros [m Hm]; exfalso.
    + rewrite (compose_schemas_differ store f g Hfg) in Hm. discriminate Hm.
    + rewrite (compose_schemas_same store g h Hgh) in Hm. cbn [bind] in Hm.
      rewrite compose_schemas_differ in Hm by exact Hfg. discriminate Hm.
  - split; (split; [| intros [H _]; contradiction]); intros [m Hm]; exfalso.
    + rewrite (compose_schemas_differ store f g Hfg) in Hm. discriminate Hm.
    + rewrite (compose_schemas_differ store g h Hgh) in Hm. discriminate Hm.
Qed.

(** ** Repeated composition *)

Lemma bind_Returned_r {A : Type} (c : Outcome A) :
  (x <- c ;; Returned x) = c.
Proof. destruct c; reflexivity. Qed.

(** The loop, read from its last iteration. *)
Lemma composeLoop_last (store : Store) (step : Morphism) (n : nat) :
  forall start : Morphism,
    composeLoop store start step (S n) =
      (before <- composeLoop store start step n ;; compose store before step).
Proof.
  induction n as [| n IH]; intros start.
  - simpl. apply bind_Returned_r.
  - change (composeLoop store start step (S (S n)))
      with (next <- compose store start step ;; composeLoop store next step (S n)).
    change (composeLoop store start step (S n))
      with (next <- compose store start step ;; composeLoop store next step n).
    rewrite bind_assoc.
    destruct (compose store start step) as [next | e]; cbn [bind].
    + apply IH.
    + reflexivity.
Qed.

(** What the loop builds when [step] can follow both [start] and itself. *)
Lemma composeLoop_Returned (store : Store) (step : Morphism) (n : nat) :
  schema (store (target step)) = schema (store (source step)) ->
  forall start : Morphism,
    schema (store (target start)) = schema (store (source step)) ->
    exists m : Morphism,
      composeLoop store start step n = Returned m /\
      source m = source start /\
      target m = match n with O => target start | S _ => target step end /\
      kind m = match n with O => kind start | S _ => composed end /\
      forall a, map m a = (b <- map start a ;; iterate (map step) n b).
Proof.
  intros Hstep.
  induction n as [| n IH]; intros start Hstart.
  - exists start. simpl. repeat split.
    intros a. symmetry. apply bind_Returned_r.
  - cbn [composeLoop].
    rewrite (compose_schemas_same store start step Hstart). cbn [bind].
    destruct (IH (MComposed (Build_ComposedMorphism
                    (fun a => b <- map start a ;; map step b)
                    (source start) (target step) start step)) Hstep)
      as [m [Hm [Hsrc [Htgt [Hkind Hmap]]]]].
    exists m. split; [exact Hm |]. split; [exact Hsrc |].
    split; [destruct n; exact Htgt |].
    split; [destruct n; [rewrite Hkind; reflexivity | exact Hkind] |].
    intros a. rewrite Hmap. simpl. apply bind_assoc.
Qed.

(** X10. Composing [start] with [step] [n] times, where [step] may follow
    [start] and itself, returns a morphism from [start.source] whose [map]
    runs [start.map] and then [step.map] [n] times in a row. *)
Theorem composeLoop_map (store : Store) (start step : Morphism) (n : nat) :
  schema (store (target start)) = schema (store (source step)) ->
  schema (store (target step)) = schema (store (source step)) ->
  exists m : Morphism,
    composeLoop store start step n = Returned m /\
    source m = source start /\
    forall a, map m a = (b <- map start a ;; iterate (map step) n b).
Proof.
  intros Hstart Hstep.
  destruct (composeLoop_Returned store step n Hstep start Hstart)
    as [m [Hm [Hsrc [_ [_ Hmap]]]]].
  exists m. auto.
Qed.

Lemma composeLoop_map_witness :
  exists m : Morphism,
    composeLoop Scenario.store NestingTest.addOne NestingTest.addOne 10 = Returned m /\
    source m = source NestingTest.addOne /\
    forall a, map m a =
              (b <- map NestingTest.addOne a ;;
               iterate (map NestingTest.addOne) 10 b).
Proof.
  apply (composeLoop_map Scenario.store NestingTest.addOne NestingTest.addOne 10);
    reflexivity.
Defined.

(** On the numbers of the test: [addOne] followed by ten further [addOne]
    steps takes 5 to 16; the ten steps alone take 5 to 15. *)
Example iterate_addOne :
  (b <- map NestingTest.addOne (SNumber 5) ;; iterate (map NestingTest.addOne) 10 b)
    = Returned (SNumber 16) /\
  iterate (map NestingTest.addOne) 10 (SNumber 5) = Returned (SNumber 15).
Proof. split; reflexivity. Qed.

(** X11. From the second iteration on, the morphism the loop builds cannot be
    reversed, although [start] and [step] are reversible: [reverse] returns,
    for every value, the failure that names [start.source -> step.target],
    because the first component of the result carries the tag ['composed']. *)
Theorem composeLoop_reverse_fails (store : Store) (start step : Morphism)
        (k : nat) :
  schema (store (target start)) = schema (store (source step)) ->
  schema (store (target step)) = schema (store (source step)) ->
  isReversible step = true ->
  exists m : Morphism,
    composeLoop store start step (S (S k)) = Returned m /\
    forall v : Serializable,
      reverse store m v =
        Returned (Failure ("Morphism " ++ dquote
                           ++ name (store (source start)) ++ " -> "
                           ++ name (store (target step))
                           ++ dquote ++ " within composition is not reversible")).
Proof.
  intros Hstart Hstep Hrev.
  destruct (composeLoop_Returned store step (S k) Hstep start Hstart)
    as [before [Hbefore [Hsrc [Htgt [Hkind _]]]]].
  rewrite composeLoop_last, Hbefore. cbn [bind].
  assert (Hmeet : schema (store (target before)) = schema (store (source step)))
    by (rewrite Htgt; exact Hstep).
  rewrite (compose_schemas_same store before step Hmeet).
  eexists. split; [reflexivity |].
  intros v.
  rewrite reverse_composed_first_not_reversible.
  - simpl. unfold sourceName, targetName, notReversibleWithin.
    rewrite Hsrc, Htgt. reflexivity.
  - exact Hrev.
  - simpl. unfold isReversible. rewrite Hkind. reflexivity.
Qed.

Lemma composeLoop_reverse_fails_witness :
  exists m : Morphism,
    composeLoop Scenario.store NestingTest.addOne NestingTest.addOne 10 = Returned m /\
    forall v : Serializable,
      reverse Scenario.store m v =
        Returned (Failure ("Morphism " ++ dquote ++ "Number -> Number" ++ dquote
                           ++ " within composition is not reversible")).
Proof.
  apply (composeLoop_reverse_fails
           Scenario.store NestingTest.addOne NestingTest.addOne 8);
    reflexivity.
Defined.

(** ** Exceptions of checkReversibility *)

(** X12. [checkReversibility] raises nothing of its own: it throws only on a
    reversible morphism, and then the exception comes from [m.map] on the
    probe, from the stored inverse on the mapped value, or from
    [m.source.equals] on the probe and the round-tripped value. *)
Theorem checkReversibility_throws_only_from_callbacks (store : Store)
        (m : Morphism) (v : Serializable) (e : Exn) :
  checkReversibility store m v = Thrown e ->
  exists r : ReversibleMorphism,
    m = MReversible r /\
    (reversible_map r v = Thrown e \/
     (exists forward,
         reversible_map r v = Returned forward /\ inverse r forward = Thrown e) \/
     (exists forward backward,
         reversible_map r v = Returned forward /\
         inverse r forward = Returned backward /\
         equals (store (reversible_source r)) v backward = Thrown e)).
Proof.
  destruct m as [b | r | c]; unfold checkReversibility; simpl; intros H.
  - discriminate H.
  - exists r. split; [reflexivity |].
    apply bind_Thrown_inv in H. destruct H as [H | [forward [Hmap H]]].
    + left. exact H.
    + right.
      apply bind_Thrown_inv in H. destruct H as [H | [backward [Hinv H]]].
      * left. exists forward. split; assumption.
      * right. exists forward, backward. repeat split; assumption.
  - discriminate H.
Qed.

Lemma checkReversibility_throws_only_from_callbacks_witness :
  exists r : ReversibleMorphism,
    Scenario.toUpperCase = MReversible r /\
    (reversible_map r (SNumber 5) = Thrown (Scenario.notAFunction "s.toUpperCase") \/
     (exists forward,
         reversible_map r (SNumber 5) = Returned forward /\
         inverse r forward = Thrown (Scenario.notAFunction "s.toUpperCase")) \/
     (exists forward backward,
         reversible_map r (SNumber 5) = Returned forward /\
         inverse r forward = Returned backward /\
         equals (Scenario.store (reversible_source r)) (SNumber 5) backward
         = Thrown (Scenario.notAFunction "s.toUpperCase"))).
Proof.
  apply (checkReversibility_throws_only_from_callbacks
           Scenario.store Scenario.toUpperCase (SNumber 5)
           (Scenario.notAFunction "s.toUpperCase")).
  reflexivity.
Defined.
